(** * Verification of the support chatbot core (app.py)

    A shallow embedding of the rule-based pipeline of [app.py]: intent
    detection, order-id extraction, the four intent handlers, the dispatcher
    and the [/chat] route.

    Python strings are sequences of Unicode code points, modelled as
    [list N].  The three services of the Python runtime the program relies
    on -- [str.lower], the regular-expression class [\d] and the whitespace
    class of [str.strip] -- depend on the Unicode tables of the interpreter;
    they are the operations of the class [PyStr], constrained only on
    ASCII text, where their behaviour is fixed.  Every theorem holds for
    every such runtime. *)

From Stdlib Require Import NArith List String Ascii Bool Lia.
From stdpp Require Import base option list strings gmap.

Local Open Scope N_scope.

(** ** Python strings *)

(** A string literal of the program (ASCII text only; the two emoji of the
    replies are given by their code points). *)
Definition lit (s : string) : list N :=
  N_of_ascii <$> list_ascii_of_string s.

(** [s.startswith(p)]. *)
Fixpoint starts_with (p s : list N) : bool :=
  match p, s with
  | [], _ => true
  | _ :: _, [] => false
  | a :: p', b :: s' => (a =? b) && starts_with p' s'
  end.

(** [needle in hay]: [needle] occurs in [hay] as a contiguous substring. *)
Fixpoint contains (needle hay : list N) : bool :=
  starts_with needle hay ||
  match hay with
  | [] => false
  | _ :: hay' => contains needle hay'
  end.

(** Truthiness of a string: [if s:] holds for the non-empty ones. *)
Definition truthy (s : list N) : bool :=
  match s with [] => false | _ :: _ => true end.

Definition is_ascii (c : N) : Prop := c < 128.

Definition ascii_lower (c : N) : N :=
  if (65 <=? c) && (c <=? 90) then c + 32 else c.

Definition ascii_isdecimal (c : N) : bool := (48 <=? c) && (c <=? 57).

Definition ascii_isspace (c : N) : bool :=
  ((9 <=? c) && (c <=? 13)) || ((28 <=? c) && (c <=? 32)).

(** The string services of the Python runtime.  On ASCII text they are the
    familiar ones; on other code points they follow the Unicode database of
    the interpreter, which is left open. *)
Class PyStr := {
  lower : list N → list N;
  isdecimal : N → bool;
  isspace : N → bool;
  lower_ascii : ∀ s, Forall is_ascii s → lower s = ascii_lower <$> s;
  isdecimal_ascii : ∀ c, is_ascii c → isdecimal c = ascii_isdecimal c;
  isspace_ascii : ∀ c, is_ascii c → isspace c = ascii_isspace c;
}.

(** The runtime that knows ASCII only: other code points are caseless and
    are neither digits nor whitespace. *)
#[export] Instance ascii_runtime : PyStr := {|
  lower := fmap ascii_lower;
  isdecimal := ascii_isdecimal;
  isspace := ascii_isspace;
  lower_ascii := λ _ _, eq_refl;
  isdecimal_ascii := λ _ _, eq_refl;
  isspace_ascii := λ _ _, eq_refl;
|}.

Local Open Scope string_scope.
Local Open Scope list_scope.

(** ** The tables of the program *)

(** [FAQ_RESPONSES]. *)
Definition FAQ_RESPONSES : gmap (list N) (list N) :=
  {[ lit "working hours" := lit "Our customer support is available 24/7.";
     lit "return policy" :=
       lit "You can return any product within 30 days of delivery.";
     lit "reset password" :=
       lit "To reset your password, go to Settings > Account > Reset Password.";
     lit "contact" :=
       lit "You can contact us at support@example.com or call +1-234-567-890." ]}.

(** [MOCK_ORDERS]. *)
Definition MOCK_ORDERS : gmap (list N) (list N) :=
  {[ lit "1234" := lit "Delivered on 25-11-2025";
     lit "5678" := lit "Out for delivery. Expected today.";
     lit "9999" := lit "Order confirmed. Preparing for dispatch." ]}.

(** ** Calls and traces

    The dispatcher and the route are instrumented: beside its result a
    computation yields the calls it made, in order.  This is what lets a
    theorem say which handler ran and that the pipeline was not entered. *)
Inductive call : Type :=
  | Call_generate_bot_response (user_message : list N)
  | Call_detect_intent (message : list N)
  | Call_handle_faq (entities : gmap string (list N))
  | Call_handle_track_order (entities : gmap string (list N))
  | Call_handle_greeting
  | Call_handle_ai_fallback (message : list N).

Definition traced (A : Type) : Type := list call * A.

Definition trace {A} (m : traced A) : list call := m.1.
Definition value {A} (m : traced A) : A := m.2.

#[export] Instance traced_ret : MRet traced := λ A a, ([], a).

#[export] Instance traced_bind : MBind traced := λ A B k m,
  (trace m ++ trace (k (value m)), value (k (value m))).

(** A call: the callee's own calls follow the record of the call. *)
Definition invoke {A} (c : call) (m : traced A) : traced A :=
  (c :: trace m, value m).

Section app.
Context {py : PyStr}.

(** ** Entity extraction *)

(** The longest prefix of [s] made of digits: what [\d+] consumes when it
    is tried at the start of [s]. *)
Fixpoint digits_prefix (s : list N) : list N :=
  match s with
  | [] => []
  | c :: s' => if isdecimal c then c :: digits_prefix s' else []
  end.

(** [re.findall(r"\d+", s)]: the scan tries the pattern at each position
    from the left; a match is greedy, and the scan resumes where it ends.
    [findall_digits] looks for the start of a match, [after_match] walks
    over the rest of the match just found. *)
Fixpoint findall_digits (s : list N) : list (list N) :=
  match s with
  | [] => []
  | c :: s' =>
      if isdecimal c then (c :: digits_prefix s') :: after_match s'
      else findall_digits s'
  end
with after_match (s : list N) : list (list N) :=
  match s with
  | [] => []
  | c :: s' => if isdecimal c then after_match s' else findall_digits s'
  end.

Definition extract_order_id (message : list N) : gmap string (list N) :=
  let numbers := findall_digits message in
  match numbers with
  | number :: _ => {[ "order_id" := number ]}
  | [] => ∅
  end.

(** ** Intent detection *)

Definition faq_keywords : list (list N) :=
  lit <$> ["working hours"; "timings"; "return policy"; "refund";
           "reset password"; "forgot password"; "contact"; "email"; "phone"].

Definition greeting_words : list (list N) := lit <$> ["hi"; "hello"; "hey"].

Definition detect_intent (message : list N) : string * gmap string (list N) :=
  let msg := lower message in
  if contains (lit "track") msg && contains (lit "order") msg then
    ("track_order", extract_order_id msg)
  else
    match find (λ kw, contains kw msg) faq_keywords with
    | Some kw => ("faq", {[ "keyword" := kw ]})
    | None =>
        if existsb (λ word, contains word msg) greeting_words then
          ("greeting", ∅)
        else ("unknown", ∅)
    end.

(** ** Handlers *)

Definition no_information : list N :=
  lit "I'm sorry, I don't have information about that yet.".

Definition handle_faq (entities : gmap string (list N)) : list N :=
  let keyword := lower (default [] (entities !! "keyword")) in
  let key :=
    if contains (lit "timings") keyword
       || contains (lit "working hours") keyword then lit "working hours"
    else if contains (lit "return policy") keyword
            || contains (lit "refund") keyword then lit "return policy"
    else if contains (lit "reset password") keyword
            || contains (lit "forgot password") keyword then lit "reset password"
    else if contains (lit "contact") keyword
            || contains (lit "email") keyword
            || contains (lit "phone") keyword then lit "contact"
    else keyword in
  match FAQ_RESPONSES !! key with
  | Some answer => if truthy answer then answer else no_information
  | None => no_information
  end.

Definition order_id_prompt : list N :=
  lit "Please provide your order ID to track your order.".

Definition order_not_found (order_id : list N) : list N :=
  lit "I could not find any details for order ID " ++ order_id
  ++ lit ". Please check the ID and try again.".

Definition handle_track_order (entities : gmap string (list N)) : list N :=
  match entities !! "order_id" with
  | None => order_id_prompt
  | Some order_id =>
      if negb (truthy order_id) then order_id_prompt
      else
        match MOCK_ORDERS !! order_id with
        | Some status =>
            if truthy status then
              lit "Your order " ++ order_id ++ lit " status: " ++ status
            else order_not_found order_id
        | None => order_not_found order_id
        end
  end.

Definition handle_greeting : list N :=
  lit "Hello! " ++ [128075]
  ++ lit " I am your AI support assistant. How can I help you today?".

Definition handle_ai_fallback (message : list N) : list N :=
  lit "I'm not entirely sure about that yet " ++ [129300] ++ lit ", "
  ++ lit "but I'll note this question for improvement. "
  ++ lit "Meanwhile, could you rephrase or ask about orders, returns, or account support?".

(** ** Main chat logic *)

Definition not_understood : list N :=
  lit "Sorry, I couldn't understand that. Can you please rephrase?".

Definition generate_bot_response (user_message : list N) : traced (list N) :=
  '(intent, entities) ← invoke (Call_detect_intent user_message)
                          (mret (detect_intent user_message));
  if String.eqb intent "faq" then
    invoke (Call_handle_faq entities) (mret (handle_faq entities))
  else if String.eqb intent "track_order" then
    invoke (Call_handle_track_order entities) (mret (handle_track_order entities))
  else if String.eqb intent "greeting" then
    invoke Call_handle_greeting (mret handle_greeting)
  else if String.eqb intent "unknown" then
    invoke (Call_handle_ai_fallback user_message)
      (mret (handle_ai_fallback user_message))
  else mret not_understood.

(** ** The route *)

Fixpoint lstrip (s : list N) : list N :=
  match s with
  | [] => []
  | c :: s' => if isspace c then lstrip s' else s
  end.

(** [s.strip()]: leading and trailing whitespace removed. *)
Definition strip (s : list N) : list N := rev (lstrip (rev (lstrip s))).

Definition blank_prompt : list N :=
  lit "Please type a message so I can help you.".

(** [chat]: [data] is the JSON object of the request, the result the JSON
    object of the response. *)
Definition chat (data : gmap string (list N)) : traced (gmap string (list N)) :=
  let user_message := default [] (data !! "message") in
  if negb (truthy (strip user_message)) then
    mret {[ "reply" := blank_prompt ]}
  else
    bot_reply ← invoke (Call_generate_bot_response user_message)
                  (generate_bot_response user_message);
    mret {[ "reply" := bot_reply ]}.

End app.

(** ** Vocabulary of the statements *)

(** [needle] occurs in [hay]: some text before it, some text after it. *)
Definition substring_of (needle hay : list N) : Prop :=
  ∃ pre post, hay = pre ++ needle ++ post.

(** The track-order rule: both words occur, anywhere. *)
Definition mentions_tracking (msg : list N) : Prop :=
  substring_of (lit "track") msg ∧ substring_of (lit "order") msg.

(** [r] is the first maximal run of digits of [message]: no digit before
    it, digits only, and no digit right after it. *)
Definition first_digit_run {py : PyStr} (message r : list N) : Prop :=
  ∃ pre post,
    message = pre ++ r ++ post
    ∧ Forall (λ c, isdecimal c = false) pre
    ∧ r ≠ []
    ∧ Forall (λ c, isdecimal c = true) r
    ∧ match post with [] => True | c :: _ => isdecimal c = false end.

(** [kw] is the first keyword of [faq_keywords], in list order, that occurs
    in [msg]. *)
Definition first_keyword (msg kw : list N) : Prop :=
  ∃ i : nat,
    faq_keywords !! i = Some kw
    ∧ substring_of kw msg
    ∧ ∀ (j : nat) kw', (j < i)%nat → faq_keywords !! j = Some kw' →
                       ¬ substring_of kw' msg.

Definition no_keyword (msg : list N) : Prop :=
  ∀ kw, kw ∈ faq_keywords → ¬ substring_of kw msg.

Definition greets (msg : list N) : Prop :=
  ∃ word, word ∈ greeting_words ∧ substring_of word msg.

(** An intent with an entity set of its kind: a keyword of the list for
    [faq], at most an order id for [track_order], nothing for the others. *)
Definition valid_detection (d : string * gmap string (list N)) : Prop :=
  (d.1 = "faq" ∧ ∃ kw, kw ∈ faq_keywords ∧ d.2 = {[ "keyword" := kw ]})
  ∨ (d.1 = "track_order"
     ∧ (d.2 = ∅ ∨ ∃ order_id, order_id ≠ [] ∧ d.2 = {[ "order_id" := order_id ]}))
  ∨ (d.1 = "greeting" ∧ d.2 = ∅)
  ∨ (d.1 = "unknown" ∧ d.2 = ∅).

(** One of [words] occurs in [keyword]. *)
Definition in_group (words : list string) (keyword : list N) : Prop :=
  ∃ word, word ∈ words ∧ substring_of (lit word) keyword.

(** The four topics of the FAQ table. *)
Definition faq_topics : list (list N) :=
  lit <$> ["working hours"; "return policy"; "reset password"; "contact"].

(** ASCII text, as a test. *)
Definition all_ascii (s : list N) : bool := forallb (λ c, (c <? 128)%N) s.

(** * Properties *)

(** ** Substring tests *)

Example lit_track : lit "track" = [116; 114; 97; 99; 107].
Proof. reflexivity. Qed.

Example contains_hi_shine : contains (lit "hi") (lit "shine") = true.
Proof. reflexivity. Qed.

Lemma starts_with_prefix (p s : list N) :
  starts_with p s = true ↔ p `prefix_of` s.
Proof.
  revert s. induction p as [|a p IH]; intros s; simpl.
  - split; [intros _; apply prefix_nil | done].
  - destruct s as [|b s].
    + split; [done | intros Hp; by apply prefix_nil_not in Hp].
    + rewrite andb_true_iff, N.eqb_eq, IH. split.
      * intros [-> Hp]. by apply prefix_cons.
      * intros Hp. split; [by apply prefix_cons_inv_1 in Hp|].
        by apply prefix_cons_inv_2 in Hp.
Qed.

Lemma contains_substring (needle hay : list N) :
  contains needle hay = true ↔ substring_of needle hay.
Proof.
  unfold substring_of. induction hay as [|b hay IH]; simpl.
  - rewrite orb_false_r, starts_with_prefix. split.
    + intros [post ->]. by exists [], post.
    + intros (pre & post & Heq). symmetry in Heq.
      apply app_eq_nil in Heq as [-> Heq]. apply app_eq_nil in Heq as [-> _].
      done.
  - rewrite orb_true_iff, starts_with_prefix, IH. split.
    + intros [[post ->] | (pre & post & ->)].
      * by exists [], post.
      * by exists (b :: pre), post.
    + intros (pre & post & Heq). destruct pre as [|c pre]; simpl in Heq.
      * left. exists post. done.
      * right. injection Heq as -> ->. by exists pre, post.
Qed.

Lemma contains_not_substring (needle hay : list N) :
  contains needle hay = false ↔ ¬ substring_of needle hay.
Proof. rewrite <- contains_substring. by destruct (contains needle hay). Qed.

(** ** The digit scan *)

Section digit_scan.
Context {py : PyStr}.

Lemma digits_prefix_run (r post : list N) :
  Forall (λ c, isdecimal c = true) r →
  match post with [] => True | c :: _ => isdecimal c = false end →
  digits_prefix (r ++ post) = r.
Proof.
  intros Hr Hpost. induction Hr as [|c r Hc _ IH]; simpl.
  - destruct post as [|c post]; [done|]. simpl. by rewrite Hpost.
  - by rewrite Hc, IH.
Qed.

Lemma findall_digits_skip (pre s : list N) :
  Forall (λ c, isdecimal c = false) pre →
  findall_digits (pre ++ s) = findall_digits s.
Proof.
  intros Hpre. induction Hpre as [|c pre Hc _ IH]; simpl; [done|].
  by rewrite Hc.
Qed.

Lemma findall_digits_no_digit (s : list N) :
  Forall (λ c, isdecimal c = false) s → findall_digits s = [].
Proof.
  intros Hs. rewrite <- (app_nil_r s). by rewrite findall_digits_skip.
Qed.

Lemma findall_digits_nil_inv (s : list N) :
  findall_digits s = [] → Forall (λ c, isdecimal c = false) s.
Proof.
  induction s as [|c s IH]; simpl; [by constructor|].
  destruct (isdecimal c) eqn:Hc; [done|]. intros Hs. constructor; auto.
Qed.

Lemma after_match_run (r post : list N) :
  Forall (λ c, isdecimal c = true) r →
  match post with [] => True | c :: _ => isdecimal c = false end →
  after_match (r ++ post) = findall_digits post.
Proof.
  intros Hr Hpost. induction Hr as [|c r Hc _ IH]; simpl.
  - destruct post as [|c post]; [done|]. simpl. by rewrite Hpost.
  - by rewrite Hc.
Qed.

(** The scan of a text cut at its first run: the run, then the matches of
    the rest. *)
Lemma findall_digits_run (pre r post : list N) :
  Forall (λ c, isdecimal c = false) pre →
  r ≠ [] →
  Forall (λ c, isdecimal c = true) r →
  match post with [] => True | c :: _ => isdecimal c = false end →
  findall_digits (pre ++ r ++ post) = r :: findall_digits post.
Proof.
  intros Hpre Hne Hr Hpost. rewrite findall_digits_skip by done.
  destruct r as [|c r]; [done|]. apply Forall_cons in Hr as [Hc Hr].
  simpl. rewrite Hc. by rewrite digits_prefix_run, after_match_run.
Qed.

(** The first match is the digit run that starts at the first digit. *)
Lemma findall_digits_head (pre r post : list N) :
  Forall (λ c, isdecimal c = false) pre →
  r ≠ [] →
  Forall (λ c, isdecimal c = true) r →
  match post with [] => True | c :: _ => isdecimal c = false end →
  head (findall_digits (pre ++ r ++ post)) = Some r.
Proof. intros. by rewrite findall_digits_run. Qed.

(** Every match is a non-empty run of digits. *)
Lemma digits_prefix_digits (s : list N) :
  Forall (λ c, isdecimal c = true) (digits_prefix s).
Proof.
  induction s as [|c s IH]; simpl; [by constructor|].
  destruct (isdecimal c) eqn:Hc; by constructor.
Qed.

Lemma findall_digits_runs (s : list N) :
  Forall (λ r, r ≠ [] ∧ Forall (λ c, isdecimal c = true) r) (findall_digits s)
  ∧ Forall (λ r, r ≠ [] ∧ Forall (λ c, isdecimal c = true) r) (after_match s).
Proof.
  induction s as [|c s [IH1 IH2]]; simpl; [by split; constructor|].
  destruct (isdecimal c) eqn:Hc; split; try done.
  constructor; [|done]. split; [done|].
  constructor; [done | apply digits_prefix_digits].
Qed.

End digit_scan.

Section first_run.
Context {py : PyStr}.

Lemma digits_prefix_split (s : list N) :
  ∃ post, s = digits_prefix s ++ post
          ∧ match post with [] => True | c :: _ => isdecimal c = false end.
Proof.
  induction s as [|c s (post & Heq & Hpost)]; simpl.
  - by exists [].
  - destruct (isdecimal c) eqn:Hc.
    + exists post. split; [simpl; congruence | done].
    + by exists (c :: s).
Qed.

Lemma first_digit_run_exists (message : list N) :
  Exists (λ c, isdecimal c = true) message → ∃ r, first_digit_run message r.
Proof.
  induction message as [|c s IH]; intros Hex; [by apply Exists_nil in Hex|].
  destruct (isdecimal c) eqn:Hc.
  - destruct (digits_prefix_split s) as (post & Heq & Hpost).
    exists (c :: digits_prefix s), [], post. simpl.
    split_and!; [by rewrite <- Heq | by constructor | done | | done].
    constructor; [done | apply digits_prefix_digits].
  - apply Exists_cons in Hex as [Hex | Hex]; [congruence|].
    destruct (IH Hex) as (r & pre & post & -> & Hpre & Hne & Hr & Hpost).
    exists r, (c :: pre), post. split_and!; try done. by constructor.
Qed.

Lemma first_digit_run_unique (message r1 r2 : list N) :
  first_digit_run message r1 → first_digit_run message r2 → r1 = r2.
Proof.
  intros (pre1 & post1 & -> & H1) (pre2 & post2 & Heq & H2).
  destruct H1 as (Hp1 & Hn1 & Hr1 & Hq1), H2 as (Hp2 & Hn2 & Hr2 & Hq2).
  pose proof (findall_digits_head pre1 r1 post1 Hp1 Hn1 Hr1 Hq1) as E1.
  pose proof (findall_digits_head pre2 r2 post2 Hp2 Hn2 Hr2 Hq2) as E2.
  rewrite <- Heq in E2. congruence.
Qed.

Lemma extract_order_id_run (message r : list N) :
  first_digit_run message r → extract_order_id message = {[ "order_id" := r ]}.
Proof.
  intros (pre & post & -> & Hpre & Hne & Hr & Hpost).
  pose proof (findall_digits_head pre r post Hpre Hne Hr Hpost) as E.
  unfold extract_order_id.
  destruct (findall_digits (pre ++ r ++ post)); simpl in E; congruence.
Qed.

Lemma extract_order_id_none (message : list N) :
  Forall (λ c, isdecimal c = false) message → extract_order_id message = ∅.
Proof.
  intros Hs. unfold extract_order_id. by rewrite findall_digits_no_digit.
Qed.

End first_run.

(** ** The rules of the detector *)

Lemma find_first {A} (P : A → bool) (l : list A) (x : A) :
  find P l = Some x ↔
  ∃ i : nat, l !! i = Some x ∧ P x = true
             ∧ ∀ (j : nat) y, (j < i)%nat → l !! j = Some y → P y = false.
Proof.
  induction l as [|a l IH]; simpl.
  - split; [done | by intros (i & Hi & _)].
  - destruct (P a) eqn:Ha.
    + split.
      * intros [= ->]. exists 0%nat. split_and!; [done..|]. intros; lia.
      * intros (i & Hi & Hx & Hlt). destruct i as [|i]; [by simplify_eq/=|].
        specialize (Hlt 0%nat a). rewrite Hlt in Ha; [done | lia | done].
    + rewrite IH. split.
      * intros (i & Hi & Hx & Hlt). exists (S i). split_and!; [done..|].
        intros [|j] y Hj Hy; simplify_eq/=; [done|]. apply (Hlt j); [lia|done].
      * intros (i & Hi & Hx & Hlt). destruct i as [|i]; [simplify_eq/=; congruence|].
        exists i. split_and!; [done..|].
        intros j y Hj Hy. apply (Hlt (S j)); [lia|done].
Qed.

Lemma find_nothing {A} (P : A → bool) (l : list A) :
  find P l = None ↔ ∀ y, y ∈ l → P y = false.
Proof.
  induction l as [|a l IH]; simpl.
  - split; [intros _ y Hy; by apply elem_of_nil in Hy | done].
  - destruct (P a) eqn:Ha.
    + split; [done|]. intros Hl. rewrite Hl in Ha; [done | by left].
    + rewrite IH. split.
      * intros Hl y [->|Hy]%elem_of_cons; auto.
      * intros Hl y Hy. apply Hl. by right.
Qed.

Lemma find_keyword_first (msg kw : list N) :
  find (λ kw, contains kw msg) faq_keywords = Some kw ↔ first_keyword msg kw.
Proof.
  rewrite find_first. unfold first_keyword.
  apply exist_proper; intros i. rewrite contains_substring.
  repeat apply and_iff_compat_l.
  split; intros Hlt j y Hj Hy; specialize (Hlt j y Hj Hy);
    by apply contains_not_substring.
Qed.

Lemma find_keyword_none (msg : list N) :
  find (λ kw, contains kw msg) faq_keywords = None ↔ no_keyword msg.
Proof.
  rewrite find_nothing. unfold no_keyword.
  split; intros Hno kw Hkw; specialize (Hno kw Hkw);
    by apply contains_not_substring.
Qed.

Lemma mentions_tracking_test (msg : list N) :
  contains (lit "track") msg && contains (lit "order") msg = true
  ↔ mentions_tracking msg.
Proof.
  unfold mentions_tracking. by rewrite andb_true_iff, !contains_substring.
Qed.

Lemma greets_test (msg : list N) :
  existsb (λ word, contains word msg) greeting_words = true ↔ greets msg.
Proof.
  rewrite existsb_exists. unfold greets.
  apply exist_proper; intros word.
  by rewrite list_elem_of_In, contains_substring.
Qed.

Section detector.
Context {py : PyStr}.

(** The four rules, in the order the detector tries them. *)
Lemma detect_intent_cases (message : list N) :
  let msg := lower message in
  (mentions_tracking msg
   ∧ detect_intent message = ("track_order", extract_order_id msg))
  ∨ (¬ mentions_tracking msg
     ∧ ∃ kw, first_keyword msg kw
             ∧ detect_intent message = ("faq", {[ "keyword" := kw ]}))
  ∨ (¬ mentions_tracking msg ∧ no_keyword msg ∧ greets msg
     ∧ detect_intent message = ("greeting", ∅))
  ∨ (¬ mentions_tracking msg ∧ no_keyword msg ∧ ¬ greets msg
     ∧ detect_intent message = ("unknown", ∅)).
Proof.
  intros msg. unfold detect_intent. fold msg.
  destruct (contains (lit "track") msg && contains (lit "order") msg) eqn:Ht.
  { left. by apply mentions_tracking_test in Ht. }
  assert (¬ mentions_tracking msg) as Hnt.
  { rewrite <- mentions_tracking_test. by rewrite Ht. }
  right. destruct (find _ faq_keywords) as [kw|] eqn:Hk.
  { left. apply find_keyword_first in Hk. eauto. }
  apply find_keyword_none in Hk.
  right. destruct (existsb _ greeting_words) eqn:Hg.
  { left. by apply greets_test in Hg. }
  right. split_and!; [done..| |done].
  rewrite <- greets_test. by rewrite Hg.
Qed.

Lemma extract_order_id_shape (message : list N) :
  extract_order_id message = ∅
  ∨ ∃ order_id, order_id ≠ []
                ∧ extract_order_id message = {[ "order_id" := order_id ]}.
Proof.
  unfold extract_order_id.
  destruct (findall_digits_runs message) as [Hruns _].
  destruct (findall_digits message) as [|r rs]; [by left|].
  right. apply Forall_cons in Hruns as [[Hne _] _]. eauto.
Qed.

Lemma first_keyword_listed (msg kw : list N) :
  first_keyword msg kw → kw ∈ faq_keywords.
Proof. intros (i & Hi & _). by eapply list_elem_of_lookup_2. Qed.

Lemma detect_intent_valid (message : list N) :
  valid_detection (detect_intent message).
Proof.
  unfold valid_detection.
  destruct (detect_intent_cases message)
    as [[_ ->] | [(_ & kw & Hkw & ->) | [(_ & _ & _ & ->) | (_ & _ & _ & ->)]]];
    simpl.
  - right; left. split; [done | apply extract_order_id_shape].
  - left. split; [done|]. exists kw. split; [|done].
    by eapply first_keyword_listed.
  - right; right; left. done.
  - right; right; right. done.
Qed.

End detector.

(** ** ASCII text: every runtime agrees with [ascii_runtime] *)

Lemma all_ascii_Forall (s : list N) : all_ascii s = true ↔ Forall is_ascii s.
Proof.
  unfold all_ascii, is_ascii. induction s as [|c s IH]; simpl.
  - split; [by constructor | done].
  - rewrite andb_true_iff, Forall_cons, IH, N.ltb_lt. done.
Qed.

Lemma all_ascii_lower (s : list N) :
  all_ascii s = true → all_ascii (ascii_lower <$> s) = true.
Proof.
  unfold all_ascii. induction s as [|c s IH]; simpl; [done|].
  rewrite !andb_true_iff. intros [Hc Hs]. split; [|auto].
  apply N.ltb_lt in Hc. apply N.ltb_lt. unfold ascii_lower.
  destruct (N.leb_spec 65 c), (N.leb_spec c 90); simpl; lia.
Qed.

Section ascii_agreement.
Context {py : PyStr}.

Lemma lower_agree (s : list N) :
  all_ascii s = true → lower s = ascii_lower <$> s.
Proof. intros Hs. by apply lower_ascii, all_ascii_Forall. Qed.

Lemma scan_agree (s : list N) :
  all_ascii s = true →
  digits_prefix s = digits_prefix (py := ascii_runtime) s
  ∧ findall_digits s = findall_digits (py := ascii_runtime) s
  ∧ after_match s = after_match (py := ascii_runtime) s.
Proof.
  induction s as [|c s IH]; [done|]. intros [Hc Hs]%andb_true_iff.
  destruct (IH Hs) as (IH1 & IH2 & IH3). simpl.
  rewrite isdecimal_ascii by (by apply N.ltb_lt).
  rewrite IH1, IH2, IH3. done.
Qed.

Lemma extract_order_id_agree (s : list N) :
  all_ascii s = true →
  extract_order_id s = extract_order_id (py := ascii_runtime) s.
Proof.
  intros Hs. unfold extract_order_id.
  by destruct (scan_agree s Hs) as (_ & -> & _).
Qed.

Lemma detect_intent_agree (message : list N) :
  all_ascii message = true →
  detect_intent message = detect_intent (py := ascii_runtime) message.
Proof.
  intros Hm. unfold detect_intent. rewrite lower_agree by done. simpl.
  by rewrite extract_order_id_agree by (by apply all_ascii_lower).
Qed.

Lemma handle_faq_agree (entities : gmap string (list N)) :
  all_ascii (default [] (entities !! "keyword")) = true →
  handle_faq entities = handle_faq (py := ascii_runtime) entities.
Proof. intros He. unfold handle_faq. by rewrite lower_agree. Qed.

Lemma faq_keywords_ascii (kw : list N) :
  kw ∈ faq_keywords → all_ascii kw = true.
Proof.
  revert kw. apply Forall_forall. unfold faq_keywords.
  repeat (apply Forall_cons; split; [vm_compute; reflexivity|]).
  apply Forall_nil_2.
Qed.

Lemma generate_bot_response_agree (message : list N) :
  all_ascii message = true →
  generate_bot_response message
  = generate_bot_response (py := ascii_runtime) message.
Proof.
  intros Hm. unfold generate_bot_response.
  rewrite detect_intent_agree by done.
  pose proof (detect_intent_valid (py := ascii_runtime) message) as Hv.
  destruct (detect_intent (py := ascii_runtime) message) as [intent entities].
  unfold valid_detection in Hv. simpl in Hv.
  destruct Hv as [(-> & kw & Hkw & ->) | [[-> _] | [[-> _] | [-> _]]]];
    [|reflexivity..].
  unfold mbind, traced_bind, invoke, mret, traced_ret. simpl.
  rewrite handle_faq_agree; [done|].
  rewrite lookup_singleton_eq. simpl. by apply faq_keywords_ascii.
Qed.

End ascii_agreement.

(** A scenario on ASCII text: move to [ascii_runtime], then run. *)
Ltac ascii_run :=
  rewrite ?generate_bot_response_agree, ?detect_intent_agree,
    ?extract_order_id_agree by (vm_compute; reflexivity);
  vm_compute; reflexivity.

(** A digit test on ASCII text is decided by the ASCII table. *)
Lemma Forall_isdecimal_ascii {py : PyStr} (s : list N) (b : bool) :
  all_ascii s = true →
  forallb (λ c, Bool.eqb (ascii_isdecimal c) b) s = true →
  Forall (λ c, isdecimal c = b) s.
Proof.
  induction s as [|c s IH]; simpl; [by constructor|].
  intros [Hc Hs]%andb_true_iff [Hd Hr]%andb_true_iff. constructor; [|auto].
  rewrite isdecimal_ascii by (by apply N.ltb_lt). by apply eqb_prop.
Qed.

(** ** Intent detection *)

(** C2: a message whose lowercased form contains "track" and contains
    "order", each anywhere, is classified [track_order] whatever else it
    contains, and its entity set is the order-id extraction of the
    lowercased message. *)
Theorem detect_intent_track_order {py : PyStr} (message : list N) :
  substring_of (lit "track") (lower message) →
  substring_of (lit "order") (lower message) →
  detect_intent message = ("track_order", extract_order_id (lower message)).
Proof.
  intros Htrack Horder. unfold detect_intent.
  apply contains_substring in Htrack, Horder.
  by rewrite Htrack, Horder.
Qed.

Lemma detect_intent_track_order_witness :
  let message := lit "Refund by EMAIL? Hello, the tracker lost my Order 42" in
  substring_of (lit "track") (lower message)
  ∧ substring_of (lit "order") (lower message)
  ∧ detect_intent message = ("track_order", {[ "order_id" := lit "42" ]}).
Proof.
  intros message.
  assert (substring_of (lit "track") (lower message)) as Htrack
    by (apply contains_substring; vm_compute; reflexivity).
  assert (substring_of (lit "order") (lower message)) as Horder
    by (apply contains_substring; vm_compute; reflexivity).
  split_and!; [exact Htrack | exact Horder |].
  rewrite (detect_intent_track_order message Htrack Horder).
  vm_compute. reflexivity.
Defined.

(** C3, as the code has it: the keyword rule is tried after the
    track-order rule.  A message whose lowercased form does not contain both
    "track" and "order" and contains a keyword of the list is classified
    [faq], with the first such keyword in list order. *)
Theorem detect_intent_faq_first_keyword {py : PyStr} (message kw : list N) :
  ¬ mentions_tracking (lower message) →
  first_keyword (lower message) kw →
  detect_intent message = ("faq", {[ "keyword" := kw ]}).
Proof.
  intros Hnt Hkw. unfold detect_intent.
  apply find_keyword_first in Hkw. rewrite Hkw.
  destruct (contains (lit "track") (lower message)
            && contains (lit "order") (lower message)) eqn:Ht; [|done].
  by apply mentions_tracking_test in Ht.
Qed.

Lemma detect_intent_faq_first_keyword_witness :
  let message := lit "Forgot password, need a REFUND or your phone" in
  ¬ mentions_tracking (lower message)
  ∧ first_keyword (lower message) (lit "refund")
  ∧ detect_intent message = ("faq", {[ "keyword" := lit "refund" ]}).
Proof.
  intros message.
  assert (¬ mentions_tracking (lower message)) as Hnt.
  { rewrite <- mentions_tracking_test. vm_compute. discriminate. }
  assert (first_keyword (lower message) (lit "refund")) as Hkw
    by (apply find_keyword_first; vm_compute; reflexivity).
  split_and!; [exact Hnt | exact Hkw |].
  exact (detect_intent_faq_first_keyword message (lit "refund") Hnt Hkw).
Defined.

(** C3 as stated fails: this message contains the keyword "refund", and the
    track-order rule, tried first, takes it. *)
Lemma detect_intent_faq_counterexample :
  let message := lit "I want a refund, please track my order 1234" in
  first_keyword (lower message) (lit "refund")
  ∧ detect_intent message = ("track_order", {[ "order_id" := lit "1234" ]})
  ∧ detect_intent message ≠ ("faq", {[ "keyword" := lit "refund" ]}).
Proof.
  intros message.
  assert (detect_intent message
          = ("track_order", {[ "order_id" := lit "1234" ]})) as Hd
    by (vm_compute; reflexivity).
  split_and!; [|exact Hd|].
  - apply find_keyword_first. vm_compute. reflexivity.
  - rewrite Hd. discriminate.
Qed.

(** C5: detection is total and exhaustive.  Every message gets one of the
    four intents with an entity set of that intent's kind; when neither the
    track-order rule nor a keyword matches, the intent is [greeting] with no
    entity if the lowercased message contains "hi", "hello" or "hey"
    anywhere (so "shine" greets), and [unknown] with no entity otherwise. *)
Theorem detect_intent_total {py : PyStr} (message : list N) :
  valid_detection (detect_intent message)
  ∧ (¬ mentions_tracking (lower message) → no_keyword (lower message) →
     (greets (lower message) → detect_intent message = ("greeting", ∅))
     ∧ (¬ greets (lower message) → detect_intent message = ("unknown", ∅)))
  ∧ detect_intent (lit "shine") = ("greeting", ∅).
Proof.
  split_and!.
  - apply detect_intent_valid.
  - intros Hnt Hnk.
    destruct (detect_intent_cases message)
      as [[Ht _] | [(_ & kw & Hkw & _) | [(_ & _ & Hg & Hd) | (_ & _ & Hg & Hd)]]];
      simpl in *.
    + done.
    + destruct Hkw as (i & Hi & Hsub & _).
      destruct (Hnk kw); [by eapply list_elem_of_lookup_2 | done].
    + done.
    + done.
  - ascii_run.
Qed.

Lemma detect_intent_total_witness :
  let message := lit "Hey, anybody there?" in
  ¬ mentions_tracking (lower message)
  ∧ no_keyword (lower message)
  ∧ greets (lower message)
  ∧ detect_intent message = ("greeting", ∅).
Proof.
  intros message.
  assert (¬ mentions_tracking (lower message)) as Hnt.
  { rewrite <- mentions_tracking_test. vm_compute. discriminate. }
  assert (no_keyword (lower message)) as Hnk
    by (apply find_keyword_none; vm_compute; reflexivity).
  assert (greets (lower message)) as Hg
    by (apply greets_test; vm_compute; reflexivity).
  split_and!; [exact Hnt | exact Hnk | exact Hg |].
  exact (proj1 (proj1 (proj2 (detect_intent_total message)) Hnt Hnk) Hg).
Defined.

(** ** Entity extraction *)

(** C4: the extractor returns the first maximal run of digits of the
    message as [order_id], as text; such a run exists as soon as the message
    has a digit; with no digit the entity set is empty.  In
    "order 00042 please" the run is "00042", zeros kept. *)
Theorem extract_order_id_first_run {py : PyStr} (message : list N) :
  (∀ r, first_digit_run message r →
        extract_order_id message = {[ "order_id" := r ]})
  ∧ (Exists (λ c, isdecimal c = true) message → ∃ r, first_digit_run message r)
  ∧ (Forall (λ c, isdecimal c = false) message → extract_order_id message = ∅)
  ∧ first_digit_run (lit "order 00042 please") (lit "00042")
  ∧ extract_order_id (lit "order 00042 please") = {[ "order_id" := lit "00042" ]}.
Proof.
  assert (first_digit_run (lit "order 00042 please") (lit "00042")) as Hrun.
  { exists (lit "order "), (lit " please"). split_and!.
    - reflexivity.
    - by apply Forall_isdecimal_ascii.
    - discriminate.
    - by apply Forall_isdecimal_ascii.
    - simpl. by rewrite isdecimal_ascii. }
  split_and!.
  - apply extract_order_id_run.
  - apply first_digit_run_exists.
  - apply extract_order_id_none.
  - exact Hrun.
  - by apply extract_order_id_run.
Qed.

Lemma extract_order_id_first_run_witness :
  let message := lit "ids 007 and 99, thanks" in
  first_digit_run message (lit "007")
  ∧ extract_order_id message = {[ "order_id" := lit "007" ]}.
Proof.
  intros message.
  assert (first_digit_run message (lit "007")) as Hrun.
  { exists (lit "ids "), (lit " and 99, thanks").
    split_and!; [reflexivity | | discriminate | | reflexivity];
      vm_compute; repeat constructor. }
  split; [exact Hrun|].
  exact (proj1 (extract_order_id_first_run message) (lit "007") Hrun).
Defined.

Example findall_digits_all_runs :
  findall_digits (lit "ids 007 and 99, thanks") = [lit "007"; lit "99"].
Proof. reflexivity. Qed.

Example extract_order_id_no_digit :
  extract_order_id (lit "track my order") = ∅.
Proof. reflexivity. Qed.

(** ** The tables *)

Lemma FAQ_RESPONSES_lookup (key answer : list N) :
  FAQ_RESPONSES !! key = Some answer →
  (key = lit "working hours"
   ∧ answer = lit "Our customer support is available 24/7.")
  ∨ (key = lit "return policy"
     ∧ answer = lit "You can return any product within 30 days of delivery.")
  ∨ (key = lit "reset password"
     ∧ answer
       = lit "To reset your password, go to Settings > Account > Reset Password.")
  ∨ (key = lit "contact"
     ∧ answer
       = lit "You can contact us at support@example.com or call +1-234-567-890.").
Proof.
  unfold FAQ_RESPONSES. rewrite !lookup_insert_Some, lookup_singleton_Some.
  intros [[<- <-] | [_ [[<- <-] | [_ [[<- <-] | [_ [<- <-]]]]]]]; auto 10.
Qed.

Lemma FAQ_RESPONSES_topics (key : list N) :
  is_Some (FAQ_RESPONSES !! key) ↔ key ∈ faq_topics.
Proof.
  split.
  - intros [answer Hk]. apply FAQ_RESPONSES_lookup in Hk.
    unfold faq_topics. simpl. rewrite !elem_of_cons.
    destruct Hk as [[-> _] | [[-> _] | [[-> _] | [-> _]]]]; auto 10.
  - unfold faq_topics. simpl. rewrite !elem_of_cons, elem_of_nil.
    intros [-> | [-> | [-> | [-> | []]]]]; vm_compute; eauto.
Qed.

Lemma MOCK_ORDERS_lookup (order_id status : list N) :
  MOCK_ORDERS !! order_id = Some status →
  (order_id = lit "1234" ∧ status = lit "Delivered on 25-11-2025")
  ∨ (order_id = lit "5678" ∧ status = lit "Out for delivery. Expected today.")
  ∨ (order_id = lit "9999"
     ∧ status = lit "Order confirmed. Preparing for dispatch.").
Proof.
  unfold MOCK_ORDERS. rewrite !lookup_insert_Some, lookup_singleton_Some.
  intros [[<- <-] | [_ [[<- <-] | [_ [<- <-]]]]]; auto 10.
Qed.

(** Every stored text is non-empty, so the [if answer:] and [if status:]
    tests of the handlers only tell a hit from a miss. *)
Lemma FAQ_RESPONSES_truthy (key answer : list N) :
  FAQ_RESPONSES !! key = Some answer → truthy answer = true.
Proof.
  intros Hk. apply FAQ_RESPONSES_lookup in Hk.
  by destruct Hk as [[_ ->] | [[_ ->] | [[_ ->] | [_ ->]]]].
Qed.

Lemma MOCK_ORDERS_truthy (order_id status : list N) :
  MOCK_ORDERS !! order_id = Some status → truthy status = true.
Proof.
  intros Hk. apply MOCK_ORDERS_lookup in Hk.
  by destruct Hk as [[_ ->] | [[_ ->] | [_ ->]]].
Qed.

(** ** The FAQ handler *)

Lemma in_group_2 (a b : string) (keyword : list N) :
  contains (lit a) keyword || contains (lit b) keyword = true
  ↔ in_group [a; b] keyword.
Proof.
  unfold in_group. rewrite orb_true_iff, !contains_substring. split.
  - intros [Ha | Hb]; [exists a | exists b]; (split; [|done]);
      rewrite !elem_of_cons; auto.
  - intros (word & Hw & Hs). rewrite !elem_of_cons, elem_of_nil in Hw.
    destruct Hw as [-> | [-> | []]]; auto.
Qed.

Lemma in_group_3 (a b c : string) (keyword : list N) :
  contains (lit a) keyword || contains (lit b) keyword
  || contains (lit c) keyword = true
  ↔ in_group [a; b; c] keyword.
Proof.
  unfold in_group. rewrite !orb_true_iff, !contains_substring. split.
  - intros [[Ha | Hb] | Hc]; [exists a | exists b | exists c];
      (split; [|done]); rewrite !elem_of_cons; auto.
  - intros (word & Hw & Hs). rewrite !elem_of_cons, elem_of_nil in Hw.
    destruct Hw as [-> | [-> | [-> | []]]]; auto.
Qed.

(** The lookup that ends [handle_faq]: the [if answer:] test never rejects
    a stored text. *)
Lemma faq_answer_stored (key : list N) :
  match FAQ_RESPONSES !! key with
  | Some answer => if truthy answer then answer else no_information
  | None => no_information
  end = default no_information (FAQ_RESPONSES !! key).
Proof.
  destruct (FAQ_RESPONSES !! key) as [answer|] eqn:Hk; [|done].
  by rewrite (FAQ_RESPONSES_truthy key answer Hk).
Qed.

(** C6, as the code has it: the handler lowercases the keyword (none
    counts as empty) and matches the groups on that, the first group that
    matches in the order working hours, return policy, reset password,
    contact; a keyword of no group is itself the key, lowercased.  The reply
    is the stored text of the key, or the no-information message when the
    table has no such key.  "What are your working hours?" gets the
    working-hours text. *)
Theorem handle_faq_normalizes {py : PyStr} (entities : gmap string (list N)) :
  let keyword := lower (default [] (entities !! "keyword")) in
  let g1 := in_group ["timings"; "working hours"] keyword in
  let g2 := in_group ["return policy"; "refund"] keyword in
  let g3 := in_group ["reset password"; "forgot password"] keyword in
  let g4 := in_group ["contact"; "email"; "phone"] keyword in
  let stored key := default no_information (FAQ_RESPONSES !! key) in
  (g1 → handle_faq entities = stored (lit "working hours"))
  ∧ (¬ g1 → g2 → handle_faq entities = stored (lit "return policy"))
  ∧ (¬ g1 → ¬ g2 → g3 → handle_faq entities = stored (lit "reset password"))
  ∧ (¬ g1 → ¬ g2 → ¬ g3 → g4 → handle_faq entities = stored (lit "contact"))
  ∧ (¬ g1 → ¬ g2 → ¬ g3 → ¬ g4 → handle_faq entities = stored keyword)
  ∧ Some (value (generate_bot_response (lit "What are your working hours?")))
    = FAQ_RESPONSES !! lit "working hours".
Proof.
  intros keyword g1 g2 g3 g4 stored.
  assert (Some (value (generate_bot_response
                         (lit "What are your working hours?")))
          = FAQ_RESPONSES !! lit "working hours") as Hscenario by ascii_run.
  pose proof (in_group_2 "timings" "working hours" keyword) as H1.
  pose proof (in_group_2 "return policy" "refund" keyword) as H2.
  pose proof (in_group_2 "reset password" "forgot password" keyword) as H3.
  pose proof (in_group_3 "contact" "email" "phone" keyword) as H4.
  fold g1 in H1. fold g2 in H2. fold g3 in H3. fold g4 in H4.
  unfold handle_faq. fold keyword. rewrite faq_answer_stored. fold stored.
  destruct (contains (lit "timings") keyword
            || contains (lit "working hours") keyword);
    destruct (contains (lit "return policy") keyword
              || contains (lit "refund") keyword);
    destruct (contains (lit "reset password") keyword
              || contains (lit "forgot password") keyword);
    destruct (contains (lit "contact") keyword
              || contains (lit "email") keyword
              || contains (lit "phone") keyword);
    (split_and!; [intuition congruence .. | exact Hscenario]).
Qed.

Lemma handle_faq_normalizes_witness :
  let entities : gmap string (list N) := {[ "keyword" := lit "Refund Timings" ]} in
  in_group ["timings"; "working hours"] (lower (default [] (entities !! "keyword")))
  ∧ handle_faq entities = lit "Our customer support is available 24/7.".
Proof.
  intros entities.
  assert (in_group ["timings"; "working hours"]
            (lower (default [] (entities !! "keyword")))) as G1
    by (apply in_group_2; vm_compute; reflexivity).
  split; [exact G1|].
  rewrite (proj1 (handle_faq_normalizes entities) G1).
  vm_compute. reflexivity.
Defined.

(** C6 as stated fails: none of the nine words occurs in "TIMINGS", and
    "TIMINGS" is no key of the table, so the claim gives the no-information
    message; the handler lowercases first and answers with the working-hours
    text. *)
Lemma handle_faq_counterexample :
  let keyword := lit "TIMINGS" in
  no_keyword keyword
  ∧ FAQ_RESPONSES !! keyword = None
  ∧ handle_faq {[ "keyword" := keyword ]}
    = lit "Our customer support is available 24/7."
  ∧ handle_faq {[ "keyword" := keyword ]} ≠ no_information.
Proof.
  intros keyword.
  assert (handle_faq {[ "keyword" := keyword ]}
          = lit "Our customer support is available 24/7.") as Hr
    by (vm_compute; reflexivity).
  split_and!; [| vm_compute; reflexivity | exact Hr | rewrite Hr; discriminate].
  apply find_keyword_none. vm_compute. reflexivity.
Qed.

(** X8: a keyword whose lowercased form contains none of the nine words
    always gets the no-information message.  Such a keyword is looked up as
    it is, and that lookup never hits: each key of the table contains a
    word of its own group. *)
Lemma handle_faq_other_keyword {py : PyStr} (entities : gmap string (list N)) :
  no_keyword (lower (default [] (entities !! "keyword"))) →
  handle_faq entities = no_information.
Proof.
  set (keyword := lower (default [] (entities !! "keyword"))). intros Hno.
  assert (∀ word, word ∈ faq_keywords → contains word keyword = false) as Hc.
  { intros word Hw. by apply contains_not_substring, Hno. }
  unfold handle_faq. fold keyword.
  rewrite !Hc by (unfold faq_keywords; simpl; rewrite !elem_of_cons; auto 12).
  simpl. rewrite faq_answer_stored.
  destruct (FAQ_RESPONSES !! keyword) as [answer|] eqn:Hk; [|done].
  assert (keyword ∈ faq_keywords) as Hin.
  { apply FAQ_RESPONSES_lookup in Hk. unfold faq_keywords. simpl.
    rewrite !elem_of_cons.
    destruct Hk as [[-> _] | [[-> _] | [[-> _] | [-> _]]]]; auto 12. }
  destruct (Hno keyword Hin). exists [], []. simpl. by rewrite app_nil_r.
Qed.

(** Each keyword the detector can report leads to a stored text. *)
Lemma handle_faq_listed_keyword {py : PyStr} (kw : list N) :
  kw ∈ faq_keywords →
  ∃ key, key ∈ faq_topics
         ∧ FAQ_RESPONSES !! key = Some (handle_faq {[ "keyword" := kw ]}).
Proof.
  intros Hkw. rewrite handle_faq_agree
    by (rewrite lookup_singleton_eq; by apply faq_keywords_ascii).
  unfold faq_keywords in Hkw. simpl in Hkw.
  rewrite !elem_of_cons, elem_of_nil in Hkw.
  destruct Hkw as [-> | [-> | [-> | [-> | [-> | [-> | [-> | [-> | [-> | []]]]]]]]]];
    [ exists (lit "working hours") | exists (lit "working hours")
    | exists (lit "return policy") | exists (lit "return policy")
    | exists (lit "reset password") | exists (lit "reset password")
    | exists (lit "contact") | exists (lit "contact") | exists (lit "contact") ];
    (split; [apply FAQ_RESPONSES_topics; vm_compute; eauto
            | vm_compute; reflexivity]).
Qed.

Lemma stored_text_not_no_information (key : list N) :
  FAQ_RESPONSES !! key ≠ Some no_information.
Proof.
  intros Hk. apply FAQ_RESPONSES_lookup in Hk.
  by destruct Hk as [[_ ?] | [[_ ?] | [[_ ?] | [_ ?]]]].
Qed.

(** The reply to a message the detector classifies [faq]. *)
Lemma generate_bot_response_faq {py : PyStr} (message kw : list N) :
  detect_intent message = ("faq", {[ "keyword" := kw ]}) →
  generate_bot_response message
  = ([Call_detect_intent message; Call_handle_faq {[ "keyword" := kw ]}],
     handle_faq {[ "keyword" := kw ]}).
Proof. intros Hd. unfold generate_bot_response. by rewrite Hd. Qed.

(** C10: a message classified [faq] is always answered with one of the
    four stored texts, never with the no-information message: each of the
    nine keywords of the detector normalizes to a topic of the table. *)
Theorem faq_reply_is_stored {py : PyStr} (message : list N) :
  (detect_intent message).1 = "faq" →
  (∃ key, key ∈ faq_topics
          ∧ FAQ_RESPONSES !! key = Some (value (generate_bot_response message)))
  ∧ value (generate_bot_response message) ≠ no_information.
Proof.
  intros Hfaq.
  destruct (detect_intent_valid message)
    as [(_ & kw & Hkw & He) | [[Ht _] | [[Ht _] | [Ht _]]]];
    try (rewrite Hfaq in Ht; discriminate).
  assert (detect_intent message = ("faq", {[ "keyword" := kw ]})) as Hd.
  { destruct (detect_intent message) as [intent entities]. simpl in *.
    by subst. }
  rewrite (generate_bot_response_faq message kw Hd). simpl.
  destruct (handle_faq_listed_keyword kw Hkw) as (key & Hkey & Hk).
  split; [eauto|]. intros Hno. rewrite Hno in Hk.
  by apply stored_text_not_no_information in Hk.
Qed.

Lemma faq_reply_is_stored_witness :
  let message := lit "How do I get a REFUND by phone?" in
  (detect_intent message).1 = "faq"
  ∧ value (generate_bot_response message)
    = lit "You can return any product within 30 days of delivery."
  ∧ value (generate_bot_response message) ≠ no_information.
Proof.
  intros message.
  assert ((detect_intent message).1 = "faq") as Hfaq by (vm_compute; reflexivity).
  split_and!; [exact Hfaq | vm_compute; reflexivity |].
  exact (proj2 (faq_reply_is_stored message Hfaq)).
Defined.

(** ** The order-status handler *)

Lemma handle_track_order_found (entities : gmap string (list N))
    (order_id : list N) :
  entities !! "order_id" = Some order_id → order_id ≠ [] →
  handle_track_order entities =
    match MOCK_ORDERS !! order_id with
    | Some status => lit "Your order " ++ order_id ++ lit " status: " ++ status
    | None => order_not_found order_id
    end.
Proof.
  intros He Hne. unfold handle_track_order. rewrite He.
  destruct order_id as [|c order_id]; [done|]. simpl.
  destruct (MOCK_ORDERS !! (c :: order_id)) as [status|] eqn:Hs; [|done].
  by rewrite (MOCK_ORDERS_truthy _ _ Hs).
Qed.

(** The three kinds of reply start with different letters. *)
Lemma handle_track_order_head (entities : gmap string (list N)) :
  head (handle_track_order entities) = Some 80
  ∨ head (handle_track_order entities) = Some 89
  ∨ head (handle_track_order entities) = Some 73.
Proof.
  unfold handle_track_order.
  destruct (entities !! "order_id") as [[|c order_id]|]; simpl; auto.
  destruct (MOCK_ORDERS !! (c :: order_id)) as [[|d status]|]; simpl; auto.
Qed.

(** C7, as the code has it: the handler asks for an order ID exactly when
    the entity set has no order id or an empty one; otherwise it looks the
    id up, as it is, in the order table and reports the stored status, or
    that no details were found for that id.  The two scenarios of the
    claim hold. *)
Theorem handle_track_order_lookup {py : PyStr}
    (entities : gmap string (list N)) :
  (handle_track_order entities
   = lit "Please provide your order ID to track your order."
   ↔ entities !! "order_id" = None ∨ entities !! "order_id" = Some [])
  ∧ (∀ order_id, entities !! "order_id" = Some order_id → order_id ≠ [] →
       handle_track_order entities =
         match MOCK_ORDERS !! order_id with
         | Some status =>
             lit "Your order " ++ order_id ++ lit " status: " ++ status
         | None =>
             lit "I could not find any details for order ID " ++ order_id
             ++ lit ". Please check the ID and try again."
         end)
  ∧ value (generate_bot_response (lit "please track my order 1234"))
    = lit "Your order 1234 status: Delivered on 25-11-2025"
  ∧ value (generate_bot_response (lit "track order 0000"))
    = lit "I could not find any details for order ID 0000. Please check the ID and try again.".
Proof.
  split_and!.
  - split.
    + intros Hp. destruct (entities !! "order_id") as [[|c order_id]|] eqn:He;
        [by right | | by left].
      rewrite (handle_track_order_found entities (c :: order_id)) in Hp
        by done.
      destruct (MOCK_ORDERS !! (c :: order_id)); discriminate.
    + unfold handle_track_order. by intros [-> | ->].
  - apply handle_track_order_found.
  - ascii_run.
  - ascii_run.
Qed.

Lemma handle_track_order_lookup_witness :
  let entities : gmap string (list N) := {[ "order_id" := lit "5678" ]} in
  entities !! "order_id" = Some (lit "5678")
  ∧ lit "5678" ≠ []
  ∧ handle_track_order entities
    = lit "Your order 5678 status: Out for delivery. Expected today.".
Proof.
  intros entities.
  assert (entities !! "order_id" = Some (lit "5678")) as He
    by (vm_compute; reflexivity).
  assert (lit "5678" ≠ []) as Hne by discriminate.
  split_and!; [exact He | exact Hne |].
  rewrite (proj1 (proj2 (handle_track_order_lookup (py := ascii_runtime) entities))
             (lit "5678") He Hne).
  vm_compute. reflexivity.
Defined.

(** C7 as stated fails: this entity set carries an order id, the empty
    one; the claim gives the could-not-find message for it, the handler asks
    for an order ID. *)
Lemma handle_track_order_counterexample :
  let entities : gmap string (list N) := {[ "order_id" := [] ]} in
  entities !! "order_id" = Some []
  ∧ MOCK_ORDERS !! ([] : list N) = None
  ∧ handle_track_order entities
    = lit "Please provide your order ID to track your order."
  ∧ handle_track_order entities
    ≠ lit "I could not find any details for order ID "
      ++ [] ++ lit ". Please check the ID and try again.".
Proof.
  intros entities. split_and!; [vm_compute; reflexivity..|].
  vm_compute. discriminate.
Qed.

(** ** The dispatcher *)

Lemma handle_faq_head {py : PyStr} (entities : gmap string (list N)) :
  head (handle_faq entities) ≠ Some 83.
Proof.
  unfold handle_faq. rewrite faq_answer_stored.
  destruct (FAQ_RESPONSES !! _) as [answer|] eqn:Hk; [|done].
  apply FAQ_RESPONSES_lookup in Hk.
  by destruct Hk as [[_ ->] | [[_ ->] | [[_ ->] | [_ ->]]]].
Qed.

(** C1: the dispatcher runs exactly one handler, the one of the detected
    intent, and returns its string.  The detected intent is one of [faq],
    [track_order], [greeting], [unknown], so the last branch is never
    taken and its reply never returned. *)
Theorem generate_bot_response_dispatch {py : PyStr} (user_message : list N) :
  let intent := (detect_intent user_message).1 in
  let entities := (detect_intent user_message).2 in
  let runs handler reply :=
    generate_bot_response user_message
    = ([Call_detect_intent user_message; handler], reply) in
  ((intent = "faq" ∧ runs (Call_handle_faq entities) (handle_faq entities))
   ∨ (intent = "track_order"
      ∧ runs (Call_handle_track_order entities) (handle_track_order entities))
   ∨ (intent = "greeting" ∧ runs Call_handle_greeting handle_greeting)
   ∨ (intent = "unknown"
      ∧ runs (Call_handle_ai_fallback user_message)
          (handle_ai_fallback user_message)))
  ∧ generate_bot_response user_message
    ≠ ([Call_detect_intent user_message], not_understood)
  ∧ value (generate_bot_response user_message)
    ≠ lit "Sorry, I couldn't understand that. Can you please rephrase?".
Proof.
  intros intent entities runs.
  assert (head (value (generate_bot_response user_message)) ≠ Some 83
          ∧ length (trace (generate_bot_response user_message)) = 2%nat
          ∧ ((intent = "faq"
              ∧ runs (Call_handle_faq entities) (handle_faq entities))
             ∨ (intent = "track_order"
                ∧ runs (Call_handle_track_order entities)
                    (handle_track_order entities))
             ∨ (intent = "greeting" ∧ runs Call_handle_greeting handle_greeting)
             ∨ (intent = "unknown"
                ∧ runs (Call_handle_ai_fallback user_message)
                    (handle_ai_fallback user_message)))) as (Hhead & Hlen & Hrun).
  { subst intent entities runs. unfold generate_bot_response.
    pose proof (detect_intent_valid user_message) as Hv.
    destruct (detect_intent user_message) as [intent entities].
    unfold valid_detection in Hv. simpl in Hv.
    destruct Hv as [[-> _] | [[-> _] | [[-> _] | [-> _]]]]; simpl.
    - split_and!; [apply handle_faq_head | done | auto].
    - split_and!; [|done|auto].
      by destruct (handle_track_order_head entities) as [-> | [-> | ->]].
    - split_and!; [done | done | auto 6].
    - split_and!; [done | done | auto 6]. }
  split_and!; [exact Hrun | |].
  - intros Heq. by rewrite Heq in Hlen.
  - intros Heq. by rewrite Heq in Hhead.
Qed.

Example dispatch_greeting :
  generate_bot_response (lit "hello there")
  = ([Call_detect_intent (lit "hello there"); Call_handle_greeting],
     lit "Hello! " ++ [128075]
     ++ lit " I am your AI support assistant. How can I help you today?").
Proof. vm_compute. reflexivity. Qed.

(** C8: a message that matches no rule gets the fallback reply, one
    fixed text, the same for every such message. *)
Theorem generate_bot_response_fallback {py : PyStr} (message : list N) :
  ¬ mentions_tracking (lower message) →
  no_keyword (lower message) →
  ¬ greets (lower message) →
  generate_bot_response message
  = ([Call_detect_intent message; Call_handle_ai_fallback message],
     lit "I'm not entirely sure about that yet " ++ [129300]
     ++ lit ", but I'll note this question for improvement. Meanwhile, could you rephrase or ask about orders, returns, or account support?")
  ∧ ∀ other, handle_ai_fallback other = handle_ai_fallback message.
Proof.
  intros Hnt Hnk Hng. split; [|done].
  destruct (detect_intent_cases message)
    as [[Ht _] | [(_ & kw & Hkw & _) | [(_ & _ & Hg & _) | (_ & _ & _ & Hd)]]];
    simpl in *; [done | | done |].
  - destruct Hkw as (i & Hi & Hsub & _).
    destruct (Hnk kw); [by eapply list_elem_of_lookup_2 | done].
  - unfold generate_bot_response. rewrite Hd. reflexivity.
Qed.

Lemma generate_bot_response_fallback_witness :
  let message := lit "asdlkj random text" in
  ¬ mentions_tracking (lower message)
  ∧ no_keyword (lower message)
  ∧ ¬ greets (lower message)
  ∧ value (generate_bot_response message)
    = lit "I'm not entirely sure about that yet " ++ [129300]
      ++ lit ", but I'll note this question for improvement. Meanwhile, could you rephrase or ask about orders, returns, or account support?".
Proof.
  intros message.
  assert (¬ mentions_tracking (lower message)) as Hnt.
  { rewrite <- mentions_tracking_test. vm_compute. discriminate. }
  assert (no_keyword (lower message)) as Hnk
    by (apply find_keyword_none; vm_compute; reflexivity).
  assert (¬ greets (lower message)) as Hng.
  { rewrite <- greets_test. vm_compute. discriminate. }
  split_and!; [exact Hnt | exact Hnk | exact Hng |].
  by rewrite (proj1 (generate_bot_response_fallback message Hnt Hnk Hng)).
Defined.

(** ** The route *)

Section route.
Context {py : PyStr}.

Lemma lstrip_blank (s : list N) :
  lstrip s = [] ↔ Forall (λ c, isspace c = true) s.
Proof.
  induction s as [|c s IH]; simpl.
  - split; [by constructor | done].
  - destruct (isspace c) eqn:Hc.
    + rewrite IH. split; [by constructor | by intros [_ ?]%Forall_cons].
    + split; [done | intros [? _]%Forall_cons; congruence].
Qed.

(** Stripping leaves nothing exactly of the blank strings. *)
Lemma strip_blank (s : list N) :
  truthy (strip s) = false ↔ Forall (λ c, isspace c = true) s.
Proof.
  rewrite <- lstrip_blank. unfold strip. split.
  - intros Ht. destruct (rev (lstrip (rev (lstrip s)))) as [|c t] eqn:Hr; [|done].
    apply (f_equal (@rev N)) in Hr. rewrite rev_involutive in Hr. simpl in Hr.
    apply lstrip_blank, Forall_rev in Hr. rewrite rev_involutive in Hr.
    destruct (lstrip s) as [|c t] eqn:Hl; [done|].
    apply Forall_cons in Hr as [Hc _].
    assert (isspace c = false) as Hn; [|congruence].
    clear -Hl. induction s as [|d s IH]; simpl in Hl; [done|].
    destruct (isspace d) eqn:Hd; [auto | congruence].
  - by intros ->.
Qed.

End route.

Example strip_inner_space :
  strip (lit "  track my order  ") = lit "track my order".
Proof. reflexivity. Qed.

(** C9: a request whose message is missing, empty or blank gets the
    type-a-message prompt from the route, and nothing of the pipeline is
    called; any other message is handed to the pipeline.  The pipeline has
    no such test of its own: given the empty message it answers with the
    fallback text. *)
Theorem chat_blank_message {py : PyStr} (data : gmap string (list N)) :
  let user_message := default [] (data !! "message") in
  (Forall (λ c, isspace c = true) user_message →
   chat data
   = ([], {[ "reply" := lit "Please type a message so I can help you." ]}))
  ∧ (¬ Forall (λ c, isspace c = true) user_message →
     chat data
     = (Call_generate_bot_response user_message
          :: trace (generate_bot_response user_message),
        {[ "reply" := value (generate_bot_response user_message) ]}))
  ∧ generate_bot_response []
    = ([Call_detect_intent []; Call_handle_ai_fallback []], handle_ai_fallback []).
Proof.
  intros user_message. unfold chat. fold user_message. split_and!.
  - intros Hb. apply strip_blank in Hb. by rewrite Hb.
  - intros Hb. rewrite <- strip_blank in Hb.
    destruct (truthy (strip user_message)); [|done]. simpl.
    unfold mbind, traced_bind, invoke, mret, traced_ret, trace, value. simpl.
    by rewrite app_nil_r.
  - ascii_run.
Qed.

Lemma chat_blank_message_witness :
  let data : gmap string (list N) := {[ "message" := [32; 9; 32; 10] ]} in
  Forall (λ c, isspace c = true) (default [] (data !! "message"))
  ∧ chat data
    = ([], {[ "reply" := lit "Please type a message so I can help you." ]}).
Proof.
  intros data.
  assert (Forall (λ c, isspace c = true) (default [] (data !! "message")))
    as Hb by (vm_compute; repeat constructor).
  split; [exact Hb|].
  exact (proj1 (chat_blank_message data) Hb).
Defined.

Example chat_missing_message :
  chat ∅ = ([], {[ "reply" := lit "Please type a message so I can help you." ]}).
Proof. reflexivity. Qed.

Example chat_hello :
  trace (chat {[ "message" := lit " hello there " ]})
  = [Call_generate_bot_response (lit " hello there ");
     Call_detect_intent (lit " hello there "); Call_handle_greeting].
Proof. vm_compute. reflexivity. Qed.

(** * Further properties of the pipeline *)

(** ** The digit scan as a whole *)

Lemma scan_digits_kept {py : PyStr} (s : list N) :
  concat (findall_digits s) = List.filter isdecimal s
  ∧ digits_prefix s ++ concat (after_match s) = List.filter isdecimal s.
Proof.
  induction s as [|c s [IH1 IH2]]; simpl; [done|].
  destruct (isdecimal c) eqn:Hc; simpl; split; try done.
  - by rewrite IH2.
  - by rewrite IH2.
Qed.

(** X1: the matches of [re.findall(r"\d+", s)] are non-empty runs of
    digits, and put end to end they are the digits of [s], each once and in
    order: the scan drops no digit and reads none twice. *)
Theorem findall_digits_partition {py : PyStr} (s : list N) :
  Forall (λ r, r ≠ [] ∧ Forall (λ c, isdecimal c = true) r) (findall_digits s)
  ∧ concat (findall_digits s) = List.filter isdecimal s.
Proof.
  split; [apply findall_digits_runs | apply scan_digits_kept].
Qed.

(** ** Order tracking, end to end *)

Lemma detect_intent_tracking_rule {py : PyStr} (message : list N) :
  mentions_tracking (lower message) →
  detect_intent message = ("track_order", extract_order_id (lower message)).
Proof.
  intros Ht. apply mentions_tracking_test in Ht.
  unfold detect_intent. by rewrite Ht.
Qed.

(** X2: a tracking message is answered from the first digit run of its
    lowercased form, wherever it stands: the order-status handler is the
    one that runs, with that run as order id, and the reply is the status
    stored under exactly this id, or the could-not-find message naming the
    id. *)
Theorem track_order_with_id {py : PyStr} (message r : list N) :
  mentions_tracking (lower message) →
  first_digit_run (lower message) r →
  generate_bot_response message
  = ([Call_detect_intent message;
      Call_handle_track_order {[ "order_id" := r ]}],
     match MOCK_ORDERS !! r with
     | Some status => lit "Your order " ++ r ++ lit " status: " ++ status
     | None =>
         lit "I could not find any details for order ID " ++ r
         ++ lit ". Please check the ID and try again."
     end).
Proof.
  intros Ht Hr. unfold generate_bot_response.
  rewrite (detect_intent_tracking_rule message Ht).
  rewrite (extract_order_id_run _ r Hr).
  unfold mbind, traced_bind, invoke, mret, traced_ret, trace, value. simpl.
  rewrite (handle_track_order_found _ r).
  - done.
  - apply lookup_singleton_eq.
  - by destruct Hr as (_ & _ & _ & _ & Hne & _).
Qed.

Lemma track_order_with_id_witness :
  let message := lit "On 25-11 I asked to TRACK order 9999" in
  mentions_tracking (lower message)
  ∧ first_digit_run (lower message) (lit "25")
  ∧ value (generate_bot_response message)
    = lit "I could not find any details for order ID 25. Please check the ID and try again.".
Proof.
  intros message.
  assert (mentions_tracking (lower message)) as Ht
    by (apply mentions_tracking_test; vm_compute; reflexivity).
  assert (first_digit_run (lower message) (lit "25")) as Hr.
  { exists (lit "on "), (lit "-11 i asked to track order 9999").
    split_and!; [reflexivity | | discriminate | | reflexivity];
      vm_compute; repeat constructor. }
  split_and!; [exact Ht | exact Hr |].
  rewrite (track_order_with_id message (lit "25") Ht Hr).
  vm_compute. reflexivity.
Defined.

(** X3: a tracking message with no digit gets the request for an order
    ID: the handler runs on an empty entity set. *)
Theorem track_order_without_id {py : PyStr} (message : list N) :
  mentions_tracking (lower message) →
  Forall (λ c, isdecimal c = false) (lower message) →
  generate_bot_response message
  = ([Call_detect_intent message; Call_handle_track_order ∅],
     lit "Please provide your order ID to track your order.").
Proof.
  intros Ht Hd. unfold generate_bot_response.
  rewrite (detect_intent_tracking_rule message Ht).
  by rewrite (extract_order_id_none _ Hd).
Qed.

Lemma track_order_without_id_witness :
  let message := lit "Where is my order? Your tracker is down" in
  mentions_tracking (lower message)
  ∧ Forall (λ c, isdecimal c = false) (lower message)
  ∧ value (generate_bot_response message)
    = lit "Please provide your order ID to track your order.".
Proof.
  intros message.
  assert (mentions_tracking (lower message)) as Ht
    by (apply mentions_tracking_test; vm_compute; reflexivity).
  assert (Forall (λ c, isdecimal c = false) (lower message)) as Hd
    by (vm_compute; repeat constructor).
  split_and!; [exact Ht | exact Hd |].
  by rewrite (track_order_without_id message Ht Hd).
Defined.

(** X4: the lookup of an order id is exact.  For a non-empty id the
    handler reports a status exactly for the ids "1234", "5678" and "9999"
    and answers with the could-not-find message exactly for every other id:
    an id with a digit more or a zero in front is another id. *)
Theorem handle_track_order_exact (entities : gmap string (list N))
    (order_id : list N) :
  entities !! "order_id" = Some order_id →
  order_id ≠ [] →
  (handle_track_order entities
   = lit "I could not find any details for order ID " ++ order_id
     ++ lit ". Please check the ID and try again."
   ↔ order_id ∉ [lit "1234"; lit "5678"; lit "9999"])
  ∧ (order_id ∈ [lit "1234"; lit "5678"; lit "9999"] →
     ∃ status, MOCK_ORDERS !! order_id = Some status
               ∧ handle_track_order entities
                 = lit "Your order " ++ order_id ++ lit " status: " ++ status).
Proof.
  intros He Hne. rewrite (handle_track_order_found entities order_id He Hne).
  assert (order_id ∈ [lit "1234"; lit "5678"; lit "9999"]
          ↔ is_Some (MOCK_ORDERS !! order_id)) as Hin.
  { rewrite !elem_of_cons, elem_of_nil. split.
    - intros [-> | [-> | [-> | []]]]; vm_compute; eauto.
    - intros [status Hs]. apply MOCK_ORDERS_lookup in Hs.
      destruct Hs as [[-> _] | [[-> _] | [-> _]]]; auto. }
  rewrite Hin. destruct (MOCK_ORDERS !! order_id) as [status|] eqn:Hs.
  - split; [|eauto]. split; [discriminate|].
    intros Hno. destruct Hno. eauto.
  - split; [|by intros [? ?]]. split; [|done].
    intros _ [? ?]. done.
Qed.

Lemma handle_track_order_exact_witness :
  let entities : gmap string (list N) := {[ "order_id" := lit "01234" ]} in
  entities !! "order_id" = Some (lit "01234")
  ∧ lit "01234" ≠ []
  ∧ handle_track_order entities
    = lit "I could not find any details for order ID 01234. Please check the ID and try again.".
Proof.
  intros entities.
  assert (entities !! "order_id" = Some (lit "01234")) as He
    by (vm_compute; reflexivity).
  assert (lit "01234" ≠ []) as Hne by discriminate.
  split_and!; [exact He | exact Hne |].
  apply (proj1 (handle_track_order_exact entities (lit "01234") He Hne)).
  vm_compute. intros Hin. by repeat (apply elem_of_cons in Hin as [Hin | Hin]; [discriminate|]);
    apply elem_of_nil in Hin.
Defined.

(** ** Questions and greetings, end to end *)

Lemma detect_intent_keyword_rule {py : PyStr} (message kw : list N) :
  ¬ mentions_tracking (lower message) →
  first_keyword (lower message) kw →
  detect_intent message = ("faq", {[ "keyword" := kw ]}).
Proof.
  intros Hnt Hkw. apply find_keyword_first in Hkw.
  rewrite <- mentions_tracking_test in Hnt. apply not_true_is_false in Hnt.
  unfold detect_intent. by rewrite Hnt, Hkw.
Qed.

Lemma handle_faq_of_keyword {py : PyStr} (kw answer : list N) :
  all_ascii kw = true →
  handle_faq (py := ascii_runtime) {[ "keyword" := kw ]} = answer →
  handle_faq {[ "keyword" := kw ]} = answer.
Proof.
  intros Hkw <-. apply handle_faq_agree. by rewrite lookup_singleton_eq.
Qed.

(** X5: a message that is no tracking message is answered by the first
    keyword of the list it contains, and by nothing else in it: the FAQ
    handler is the one that runs, and "working hours" and "timings" give the
    support-hours text, "return policy" and "refund" the returns text,
    "reset password" and "forgot password" the password text, "contact",
    "email" and "phone" the contact text. *)
Theorem faq_reply_by_keyword {py : PyStr} (message kw : list N) :
  ¬ mentions_tracking (lower message) →
  first_keyword (lower message) kw →
  let reply := value (generate_bot_response message) in
  trace (generate_bot_response message)
  = [Call_detect_intent message; Call_handle_faq {[ "keyword" := kw ]}]
  ∧ (kw ∈ [lit "working hours"; lit "timings"] →
     reply = lit "Our customer support is available 24/7.")
  ∧ (kw ∈ [lit "return policy"; lit "refund"] →
     reply = lit "You can return any product within 30 days of delivery.")
  ∧ (kw ∈ [lit "reset password"; lit "forgot password"] →
     reply
     = lit "To reset your password, go to Settings > Account > Reset Password.")
  ∧ (kw ∈ [lit "contact"; lit "email"; lit "phone"] →
     reply
     = lit "You can contact us at support@example.com or call +1-234-567-890.").
Proof.
  intros Hnt Hkw reply. subst reply.
  rewrite (generate_bot_response_faq message kw
             (detect_intent_keyword_rule message kw Hnt Hkw)).
  unfold trace, value. simpl. split_and!; [done|..];
    rewrite !elem_of_cons, elem_of_nil;
    intros Hin; repeat destruct Hin as [-> | Hin]; try done;
    by apply handle_faq_of_keyword.
Qed.

Lemma faq_reply_by_keyword_witness :
  let message := lit "Hi! I forgot password and phone, any REFUND?" in
  ¬ mentions_tracking (lower message)
  ∧ first_keyword (lower message) (lit "refund")
  ∧ value (generate_bot_response message)
    = lit "You can return any product within 30 days of delivery.".
Proof.
  intros message.
  assert (¬ mentions_tracking (lower message)) as Hnt.
  { rewrite <- mentions_tracking_test. vm_compute. discriminate. }
  assert (first_keyword (lower message) (lit "refund")) as Hkw
    by (apply find_keyword_first; vm_compute; reflexivity).
  split_and!; [exact Hnt | exact Hkw |].
  apply (faq_reply_by_keyword message (lit "refund") Hnt Hkw).
  rewrite !elem_of_cons. auto.
Defined.

(** X6: a message with no tracking pair and no keyword that contains
    "hi", "hello" or "hey" anywhere is greeted: the greeting handler is the
    one that runs and the reply is the greeting text. *)
Theorem greeting_reply {py : PyStr} (message : list N) :
  ¬ mentions_tracking (lower message) →
  no_keyword (lower message) →
  greets (lower message) →
  generate_bot_response message
  = ([Call_detect_intent message; Call_handle_greeting],
     lit "Hello! " ++ [128075]
     ++ lit " I am your AI support assistant. How can I help you today?").
Proof.
  intros Hnt Hnk Hg.
  rewrite <- mentions_tracking_test in Hnt. apply not_true_is_false in Hnt.
  apply find_keyword_none in Hnk. apply greets_test in Hg.
  unfold generate_bot_response, detect_intent. by rewrite Hnt, Hnk, Hg.
Qed.

Lemma greeting_reply_witness :
  let message := lit "Anything new in the CHINA shop?" in
  ¬ mentions_tracking (lower message)
  ∧ no_keyword (lower message)
  ∧ greets (lower message)
  ∧ value (generate_bot_response message)
    = lit "Hello! " ++ [128075]
      ++ lit " I am your AI support assistant. How can I help you today?".
Proof.
  intros message.
  assert (¬ mentions_tracking (lower message)) as Hnt.
  { rewrite <- mentions_tracking_test. vm_compute. discriminate. }
  assert (no_keyword (lower message)) as Hnk
    by (apply find_keyword_none; vm_compute; reflexivity).
  assert (greets (lower message)) as Hg
    by (apply greets_test; vm_compute; reflexivity).
  split_and!; [exact Hnt | exact Hnk | exact Hg |].
  by rewrite (greeting_reply message Hnt Hnk Hg).
Defined.

(** ** Letter case *)



(** ** Replies of the FAQ handler *)

Lemma handle_faq_other_keyword_witness :
  let entities : gmap string (list N) := {[ "keyword" := lit "Return Policies" ]} in
  no_keyword (lower (default [] (entities !! "keyword")))
  ∧ handle_faq entities = lit "I'm sorry, I don't have information about that yet.".
Proof.
  intros entities.
  assert (no_keyword (lower (default [] (entities !! "keyword")))) as Hno
    by (apply find_keyword_none; vm_compute; reflexivity).
  split; [exact Hno|].
  exact (handle_faq_other_keyword entities Hno).
Defined.

Lemma handle_faq_nonempty {py : PyStr} (entities : gmap string (list N)) :
  handle_faq entities ≠ [].
Proof.
  unfold handle_faq. rewrite faq_answer_stored.
  destruct (FAQ_RESPONSES !! _) as [answer|] eqn:Hk; [|done].
  apply FAQ_RESPONSES_truthy in Hk. by destruct answer.
Qed.

(** X9: whatever the entity set, the FAQ handler answers with one of the
    four stored texts or with the no-information message, never with an
    empty text; an entity set with no keyword gets the no-information
    message. *)
Theorem handle_faq_replies {py : PyStr} (entities : gmap string (list N)) :
  (handle_faq entities = no_information
   ∨ ∃ key, key ∈ faq_topics
            ∧ FAQ_RESPONSES !! key = Some (handle_faq entities))
  ∧ handle_faq entities ≠ []
  ∧ (entities !! "keyword" = None → handle_faq entities = no_information).
Proof.
  split_and!.
  - unfold handle_faq. rewrite faq_answer_stored.
    destruct (FAQ_RESPONSES !! _) as [answer|] eqn:Hk; [right | by left].
    eexists. split; [|exact Hk]. apply FAQ_RESPONSES_topics. eauto.
  - apply handle_faq_nonempty.
  - intros He. unfold handle_faq. rewrite He. simpl.
    rewrite (lower_ascii []) by constructor. reflexivity.
Qed.

Lemma handle_faq_replies_witness :
  let entities : gmap string (list N) := {[ "order_id" := lit "1234" ]} in
  entities !! "keyword" = None
  ∧ handle_faq entities = lit "I'm sorry, I don't have information about that yet.".
Proof.
  intros entities.
  assert (entities !! "keyword" = None) as He by (vm_compute; reflexivity).
  split; [exact He|].
  exact (proj2 (proj2 (handle_faq_replies entities)) He).
Defined.

(** ** The route as a whole *)


